(** * SparkPost e-mail backend for Django: a shallow embedding

    This development embeds [sparkpost/django/email_backend.py] and proves
    the properties its specification states about message validation,
    parameter construction, dispatch and batch sending.

    Python dictionaries ([params], the [sparkpost] attribute of a message)
    are finite maps from strings to Python values; exceptions are an
    inductive type and a raising computation returns [Raise e]; the remote
    client [self.client.transmissions.send] is a parameter of the
    development that acts on an abstract world. *)

From Stdlib Require Import ZArith String List Bool Lia.
From stdpp Require Import base strings gmap fin_maps.

Import ListNotations.
Local Open Scope string_scope.
Local Open Scope Z_scope.

(** ** Python values *)

(** The values that occur in keyword arguments: recipients are bare
    strings or nested dictionaries, substitution data is a dictionary. *)
#[local] Unset Elimination Schemes.
Inductive value : Type :=
| VNone
| VBool (b : bool)
| VInt (z : Z)
| VStr (s : string)
| VList (l : list value)
| VDict (d : list (string * value)).
#[local] Set Elimination Schemes.

(** Python truth value testing, as used by [if sparkpost_cfg.get('template')]. *)
Definition truthy (v : value) : bool :=
  match v with
  | VNone => false
  | VBool b => b
  | VInt z => negb (z =? 0)
  | VStr s => negb (String.eqb s "")
  | VList l => negb (Nat.eqb (List.length l) 0)
  | VDict d => negb (Nat.eqb (List.length d) 0)
  end.

(** [d.get(k)]: the value under [k], or [None]. *)
Definition dict_get (d : gmap string value) (k : string) : value :=
  match d !! k with
  | Some v => v
  | None => VNone
  end.

(** [k in d] *)
Definition dict_in (k : string) (d : gmap string value) : bool :=
  match d !! k with
  | Some _ => true
  | None => false
  end.

(** [d.pop(k, None)] used as a statement: the key is removed if present. *)
Definition dict_pop (k : string) (d : gmap string value) : gmap string value :=
  delete k d.

(** [d.update(other)]: the keys of [other] win. *)
Definition dict_update (d other : gmap string value) : gmap string value :=
  other ∪ d.

(** Truth value of a dictionary or of a missing attribute ([None]). *)
Definition cfg_truthy (cfg : option (gmap string value)) : bool :=
  match cfg with
  | None => false
  | Some d => negb (Nat.eqb (size d) 0)
  end.

(** ** Messages *)

(** An attachment as Django stores it: (filename, content, mimetype). *)
Definition attachment : Type := string * string * string.

(** The fields of [django.core.mail.EmailMessage] the backend reads.
    Attributes the backend probes with [getattr(.., default)] or [hasattr]
    are optional: [None] is an absent attribute. *)
Record EmailMessage : Type := {
  subject : string;
  body : string;
  from_email : string;
  to : list value;
  cc : option (list string);
  bcc : option (list string);
  reply_to : option (list string);
  attachments : list attachment;
  alternatives : option (list (string * string));
  sparkpost : option (gmap string value)
}.

(** [getattr(message, param, default)] for the address-list attributes. *)
Definition getattr (message : EmailMessage) (param : string)
    (default : list string) : list string :=
  let attr :=
    if String.eqb param "cc" then cc message
    else if String.eqb param "bcc" then bcc message
    else if String.eqb param "reply_to" then reply_to message
    else None in
  match attr with
  | Some l => l
  | None => default
  end.

(** ** Exceptions and results *)

(** One record of [SparkPostAPIException.errors]. *)
Record error_record : Type := {
  code : string;
  message : string;
  description : string
}.

Inductive exn : Type :=
| UnsupportedParam (msg : string)
| UnsupportedContent (msg : string)
| InvalidInlineTemplate (msg : string)
| InvalidStoredTemplate (e : exn)
| SparkPostAPIException (errors : list error_record)
| OtherException (msg : string).

Inductive result (A : Type) : Type :=
| Ok (a : A)
| Raise (e : exn).
Arguments Ok {A} a.
Arguments Raise {A} e.

(** The dictionary [transmissions.send] returns. *)
Record response : Type := {
  total_accepted_recipients : Z;
  total_rejected_recipients : Z
}.

(** ** The validation steps *)

Definition unsupported_params : list string := ["cc"; "bcc"; "reply_to"].

Fixpoint check_unsupported_loop (message : EmailMessage)
    (params : list string) : result unit :=
  match params with
  | [] => Ok tt
  | param :: rest =>
      if negb (Nat.eqb (List.length (getattr message param [])) 0)
      then Raise (UnsupportedParam
             ("The SparkPost Django email backend does not currently support "
              +:+ param +:+ "."))
      else check_unsupported_loop message rest
  end.

Definition check_unsupported (message : EmailMessage) : result unit :=
  check_unsupported_loop message unsupported_params.

Definition check_attachments (message : EmailMessage) : result unit :=
  if negb (Nat.eqb (List.length (attachments message)) 0)
  then Raise (UnsupportedContent
         "The SparkPost Django email backend does not currently support attachment.")
  else Ok tt.

Definition check_inline_template (sparkpost_cfg : gmap string value)
    : result unit :=
  if negb (Bool.eqb (dict_in "html" sparkpost_cfg) (dict_in "text" sparkpost_cfg))
  then Raise (InvalidInlineTemplate
         "Both 'html' and 'text' must be present in 'EmailMessage.sparkpost'")
  else Ok tt.

(** ** The backend *)

Section Backend.

(** The remote capability: [self.client.transmissions.send], called with
    [params] as its keyword arguments.
    It acts on a world of its own (the provider, the network, a mock's
    script) and either returns a response or raises. *)
Variable World : Type.
Variable transmissions_send :
  gmap string value -> World -> result response * World.

(** The state a send runs in: the remote world, and the keyword arguments
    of every call made to the remote capability so far, oldest first. *)
Record backend_state : Type := {
  world : World;
  calls : list (gmap string value)
}.

(** Computations of the backend: they may raise and may call the remote. *)
Definition Backend (A : Type) : Type :=
  backend_state -> result A * backend_state.

Definition ret {A : Type} (a : A) : Backend A :=
  fun st => (Ok a, st).

Definition raise {A : Type} (e : exn) : Backend A :=
  fun st => (Raise e, st).

Definition bind {A B : Type} (m : Backend A) (k : A -> Backend B) : Backend B :=
  fun st =>
    match m st with
    | (Ok a, st') => k a st'
    | (Raise e, st') => (Raise e, st')
    end.

(** A pure step that may raise. *)
Definition lift {A : Type} (r : result A) : Backend A :=
  fun st => (r, st).

(** [try: m except Exception as e: handler e] *)
Definition try_except {A : Type} (m : Backend A) (handler : exn -> Backend A)
    : Backend A :=
  fun st =>
    match m st with
    | (Ok a, st') => (Ok a, st')
    | (Raise e, st') => handler e st'
    end.

Notation "x <- m ;; k" := (bind m (fun x => k))
  (at level 100, m at next level, right associativity).
Notation "m ;;; k" := (bind m (fun _ => k))
  (at level 100, right associativity).

(** One call of the remote capability, recorded in [calls]. *)
Definition client_transmissions_send (params : gmap string value)
    : Backend response :=
  fun st =>
    let '(r, w) := transmissions_send params (world st) in
    (r, {| world := w; calls := (calls st ++ [params])%list |}).

(** [for alternative in message.alternatives: ...] *)
Fixpoint alternatives_loop (alts : list (string * string))
    (params : gmap string value) : result (gmap string value) :=
  match alts with
  | [] => Ok params
  | alternative :: rest =>
      if String.eqb (snd alternative) "text/html"
      then alternatives_loop rest (<["html" := VStr (fst alternative)]> params)
      else Raise (UnsupportedContent
             ("Content type " +:+ snd alternative +:+ " is not supported"))
  end.

(** [any(err['code'] == '1603' for err in e.errors)] *)
Definition any_1603 (errors : list error_record) : bool :=
  existsb (fun err => String.eqb (code err) "1603") errors.

Definition _send (message : EmailMessage) : Backend response :=
  lift (check_unsupported message) ;;;
  lift (check_attachments message) ;;;
  let params : gmap string value :=
    <["recipients" := VList (to message)]>
    (<["from_email" := VStr (from_email message)]>
    (<["subject" := VStr (subject message)]>
    (<["text" := VStr (body message)]> ∅))) in
  let sparkpost_cfg := sparkpost message in
  params <-
    (match sparkpost_cfg with
     | Some cfg =>
         if cfg_truthy sparkpost_cfg then
           lift (check_inline_template cfg) ;;;
           let params :=
             if truthy (dict_get cfg "template")
             then dict_pop "text" params
             else params in
           ret (dict_update params cfg)
         else ret params
     | None => ret params
     end) ;;
  params <-
    (match alternatives message with
     | Some alts =>
         if (0 <? Z.of_nat (List.length alts))
         then lift (alternatives_loop alts params)
         else ret params
     | None => ret params
     end) ;;
  try_except (client_transmissions_send params)
    (fun e =>
       match e with
       | SparkPostAPIException errors =>
           if any_1603 errors
           then raise (InvalidStoredTemplate e)
           else raise e
       | _ => raise e
       end).

(** [send_messages]: the loop, with [success] as its accumulator. *)
Fixpoint send_messages_loop (fail_silently : bool)
    (email_messages : list EmailMessage) (success : Z) : Backend Z :=
  match email_messages with
  | [] => ret success
  | message :: rest =>
      fun st =>
        match _send message st with
        | (Ok response, st') =>
            send_messages_loop fail_silently rest
              (success + total_accepted_recipients response) st'
        | (Raise e, st') =>
            if negb fail_silently
            then (Raise e, st')
            else send_messages_loop fail_silently rest success st'
        end
  end.

Definition send_messages (fail_silently : bool)
    (email_messages : list EmailMessage) : Backend Z :=
  send_messages_loop fail_silently email_messages 0.

(** *** The pure part of [_send]

    [translate] is what [_send] does before it reaches the remote
    capability: the validation steps and the construction of [params].
    [dispatch] is its last statement, the call in its [try] block.
    Lemma [_send_translate] below shows that [_send] is the one after the
    other. *)

Definition base_params (message : EmailMessage) : gmap string value :=
  <["recipients" := VList (to message)]>
  (<["from_email" := VStr (from_email message)]>
  (<["subject" := VStr (subject message)]>
  (<["text" := VStr (body message)]> ∅))).

Definition apply_cfg (message : EmailMessage) (params : gmap string value)
    : result (gmap string value) :=
  match sparkpost message with
  | Some cfg =>
      if cfg_truthy (Some cfg) then
        match check_inline_template cfg with
        | Raise e => Raise e
        | Ok _ =>
            Ok (dict_update
                  (if truthy (dict_get cfg "template")
                   then dict_pop "text" params else params) cfg)
        end
      else Ok params
  | None => Ok params
  end.

Definition apply_alternatives (message : EmailMessage)
    (params : gmap string value) : result (gmap string value) :=
  match alternatives message with
  | Some alts =>
      if (0 <? Z.of_nat (List.length alts))
      then alternatives_loop alts params
      else Ok params
  | None => Ok params
  end.

Definition translate (message : EmailMessage) : result (gmap string value) :=
  match check_unsupported message with
  | Raise e => Raise e
  | Ok _ =>
      match check_attachments message with
      | Raise e => Raise e
      | Ok _ =>
          match apply_cfg message (base_params message) with
          | Raise e => Raise e
          | Ok params => apply_alternatives message params
          end
      end
  end.

Definition dispatch (params : gmap string value) : Backend response :=
  try_except (client_transmissions_send params)
    (fun e =>
       match e with
       | SparkPostAPIException errors =>
           if any_1603 errors
           then raise (InvalidStoredTemplate e)
           else raise e
       | _ => raise e
       end).

(** [dispatched message st params]: sending [message] from [st] called the
    remote capability, once, with [params]. *)
Definition dispatched (message : EmailMessage) (st : backend_state)
    (params : gmap string value) : Prop :=
  calls (snd (_send message st)) = (calls st ++ [params])%list.

(** Every message of a batch is sent successfully, one after the other:
    [rs] are the responses in order and [st'] is the state at the end. *)
Inductive all_sent :
  list EmailMessage -> backend_state -> list response -> backend_state -> Prop :=
| all_sent_nil st : all_sent [] st [] st
| all_sent_cons message rest st r st1 rs st2 :
    _send message st = (Ok r, st1) ->
    all_sent rest st1 rs st2 ->
    all_sent (message :: rest) st (r :: rs) st2.

End Backend.

Arguments world {World} _.
Arguments calls {World} _.
Arguments dispatched {World} _ _ _ _.
Arguments all_sent {World} _ _ _ _ _.

(** ** Properties of messages used in the statements *)

(** The message has no cc, bcc or reply-to address. *)
Definition no_unsupported_params (message : EmailMessage) : Prop :=
  getattr message "cc" [] = [] /\
  getattr message "bcc" [] = [] /\
  getattr message "reply_to" [] = [].

(** The [sparkpost] attribute, if there is one, has both or neither of the
    keys html and text. *)
Definition inline_template_ok (message : EmailMessage) : Prop :=
  match sparkpost message with
  | Some cfg => dict_in "html" cfg = dict_in "text" cfg
  | None => True
  end.

(** Every alternative part of the message, if any, is of html type. *)
Definition alternatives_html (message : EmailMessage) : Prop :=
  match alternatives message with
  | Some alts => Forall (fun alternative => snd alternative = "text/html") alts
  | None => True
  end.

(** The sum of the accepted counts of a list of responses. *)
Definition sum_accepted (rs : list response) : Z :=
  fold_right Z.add 0 (map total_accepted_recipients rs).

(** ** A scripted remote capability

    The remote used on concrete inputs plays a script, like a mock with a
    list of side effects: each call consumes the next outcome, and an
    exhausted script answers with no accepted and no rejected recipient. *)

Definition mock_world : Type := list (result response).

Definition mock_send (params : gmap string value) (w : mock_world)
    : result response * mock_world :=
  match w with
  | [] => (Ok {| total_accepted_recipients := 0;
                 total_rejected_recipients := 0 |}, [])
  | r :: w' => (r, w')
  end.

Definition mock_state (script : mock_world) : backend_state mock_world :=
  {| world := script; calls := [] |}.

Definition accepted (n : Z) : result response :=
  Ok {| total_accepted_recipients := n; total_rejected_recipients := 2 |}.

Definition mock_log (script : mock_world) (log : list (gmap string value))
    : backend_state mock_world :=
  {| world := script; calls := log |}.

(** The message of the test suite's [get_params]. *)
Definition plain_message : EmailMessage := {|
  subject := "test subject";
  body := "test body";
  from_email := "from@example.com";
  to := [VStr "to@example.com"];
  cc := Some [];
  bcc := Some [];
  reply_to := Some [];
  attachments := [];
  alternatives := None;
  sparkpost := None
|}.

Definition with_cc (l : list string) (m : EmailMessage) : EmailMessage :=
  {| subject := subject m; body := body m; from_email := from_email m;
     to := to m; cc := Some l; bcc := bcc m; reply_to := reply_to m;
     attachments := attachments m; alternatives := alternatives m;
     sparkpost := sparkpost m |}.

Definition with_attachments (l : list attachment) (m : EmailMessage)
    : EmailMessage :=
  {| subject := subject m; body := body m; from_email := from_email m;
     to := to m; cc := cc m; bcc := bcc m; reply_to := reply_to m;
     attachments := l; alternatives := alternatives m;
     sparkpost := sparkpost m |}.

Definition with_alternatives (l : list (string * string)) (m : EmailMessage)
    : EmailMessage :=
  {| subject := subject m; body := body m; from_email := from_email m;
     to := to m; cc := cc m; bcc := bcc m; reply_to := reply_to m;
     attachments := attachments m; alternatives := Some l;
     sparkpost := sparkpost m |}.

Definition with_sparkpost (cfg : gmap string value) (m : EmailMessage)
    : EmailMessage :=
  {| subject := subject m; body := body m; from_email := from_email m;
     to := to m; cc := cc m; bcc := bcc m; reply_to := reply_to m;
     attachments := attachments m; alternatives := alternatives m;
     sparkpost := Some cfg |}.

(** *** Overrides, messages and provider errors of the test suite *)

Definition inline_cfg : gmap string value :=
  <["html" := VStr "<p>template content</>"]>
  (<["text" := VStr "template content"]>
  (<["substitution_data" := VDict [("global_var", VStr "value")]]> ∅)).

Definition text_only_cfg : gmap string value :=
  <["text" := VStr "template content"]>
  (<["substitution_data" := VDict [("global_var", VStr "value")]]> ∅).

Definition html_only_cfg : gmap string value :=
  {[ "html" := VStr "<p>template content</>" ]}.

Definition stored_cfg : gmap string value :=
  {[ "template" := VStr "t" ]}.

Definition stored_inline_cfg : gmap string value :=
  <["template" := VStr "stored_template"]> inline_cfg.

Definition html_message : EmailMessage :=
  with_alternatives [("<p>Hello There</p>", "text/html")] plain_message.

Definition two_html_message : EmailMessage :=
  with_alternatives
    [("<p>Hello</p>", "text/html"); ("<p>Hello There</p>", "text/html")]
    plain_message.

Definition alien_message : EmailMessage :=
  with_alternatives [("<ppp>non-plain content</ppp>", "text/alien")]
    plain_message.

Definition attached_message : EmailMessage :=
  with_attachments [("file.txt", "hello file", "text/plain")] plain_message.

Definition template_not_found : exn :=
  SparkPostAPIException
    [{| code := "1603";
        message := "Subresource not found";
        description := "template 'invalid_stored_template' does not exist" |}].

Definition invalid_domain : exn :=
  SparkPostAPIException
    [{| code := "7001";
        message := "Invalid domain";
        description := "Unconfigured sending domain" |}].

Definition response_of (n : Z) : response :=
  {| total_accepted_recipients := n; total_rejected_recipients := 2 |}.

(** *** Further overrides and messages used on concrete inputs *)

Definition empty_template_cfg : gmap string value :=
  {[ "template" := VStr "" ]}.

Definition subject_cfg : gmap string value :=
  <["subject" := VStr "Overridden subject"]>
  (<["campaign" := VStr "welcome"]> ∅).

Definition mixed_message : EmailMessage :=
  with_alternatives
    [("<p>Hello</p>", "text/html"); ("{}", "application/json");
     ("hello", "text/alien")]
    plain_message.

(** The message passes every validation step of [_send]. *)
Definition supported (message : EmailMessage) : Prop :=
  no_unsupported_params message /\ attachments message = [] /\
  inline_template_ok message /\ alternatives_html message.

(** * Properties *)

Section BackendFacts.

Variable World : Type.
Variable transmissions_send :
  gmap string value -> World -> result response * World.

Local Abbreviation send := (_send World transmissions_send).
Local Abbreviation send_all := (send_messages World transmissions_send).
Local Abbreviation send_loop := (send_messages_loop World transmissions_send).
Local Abbreviation state := (backend_state World).
Local Abbreviation reaches := (dispatched transmissions_send).
Local Abbreviation batch_sent := (all_sent transmissions_send).

(** ** [_send] is [translate] followed by [dispatch] *)

Lemma _send_translate (m : EmailMessage) (st : state) :
  send m st =
  match translate m with
  | Raise e => (Raise e, st)
  | Ok params => dispatch World transmissions_send params st
  end.
Proof.
  unfold _send, translate, apply_cfg, apply_alternatives, base_params,
    dispatch, bind, lift, ret.
  destruct (check_unsupported m) as [[]|e]; [|reflexivity].
  destruct (check_attachments m) as [[]|e]; [|reflexivity].
  destruct (sparkpost m) as [cfg|].
  - destruct (cfg_truthy (Some cfg)).
    + destruct (check_inline_template cfg) as [[]|e]; [|reflexivity].
      destruct (alternatives m) as [alts|]; [|reflexivity].
      destruct (0 <? Z.of_nat (List.length alts)); [|reflexivity].
      match goal with
      | |- context [alternatives_loop alts ?q] =>
          destruct (alternatives_loop alts q); reflexivity
      end.
    + destruct (alternatives m) as [alts|]; [|reflexivity].
      destruct (0 <? Z.of_nat (List.length alts)); [|reflexivity].
      match goal with
      | |- context [alternatives_loop alts ?q] =>
          destruct (alternatives_loop alts q); reflexivity
      end.
  - destruct (alternatives m) as [alts|]; [|reflexivity].
    destruct (0 <? Z.of_nat (List.length alts)); [|reflexivity].
    match goal with
    | |- context [alternatives_loop alts ?q] =>
        destruct (alternatives_loop alts q); reflexivity
    end.
Qed.

(** [dispatch] calls the remote exactly once, whatever the outcome. *)
Lemma dispatch_calls (params : gmap string value) (st : state) :
  calls (snd (dispatch World transmissions_send params st))
  = (calls st ++ [params])%list.
Proof.
  unfold dispatch, try_except, client_transmissions_send, raise.
  destruct (transmissions_send params (world st)) as [[r|e] w]; simpl.
  - reflexivity.
  - destruct e; simpl; try reflexivity.
    destruct (any_1603 errors); reflexivity.
Qed.

(** A validation error leaves the state as it was: nothing was called. *)
Lemma _send_invalid (m : EmailMessage) (st : state) (e : exn) :
  translate m = Raise e -> send m st = (Raise e, st).
Proof. intros H. rewrite _send_translate, H. reflexivity. Qed.

Lemma _send_valid (m : EmailMessage) (st : state) (params : gmap string value) :
  translate m = Ok params ->
  send m st = dispatch World transmissions_send params st.
Proof. intros H. rewrite _send_translate, H. reflexivity. Qed.

Lemma app_singleton_neq {A : Type} (l : list A) (x : A) :
  l <> (l ++ [x])%list.
Proof.
  intros H. apply (f_equal (@List.length A)) in H.
  rewrite length_app in H. simpl in H. lia.
Qed.

(** The parameters that reach the remote are those [translate] builds. *)
Lemma dispatched_translate (m : EmailMessage) (st : state)
    (params : gmap string value) :
  reaches m st params <-> translate m = Ok params.
Proof.
  unfold dispatched. rewrite _send_translate. split.
  - destruct (translate m) as [q|e]; simpl.
    + rewrite dispatch_calls. intros H.
      apply app_inv_head in H. congruence.
    + intros H. exfalso. exact (app_singleton_neq _ _ H).
  - intros ->. apply dispatch_calls.
Qed.

(** ** The validation steps, case by case *)

Lemma check_unsupported_cases (m : EmailMessage) :
  check_unsupported m =
  match getattr m "cc" [] with
  | _ :: _ => Raise (UnsupportedParam
      "The SparkPost Django email backend does not currently support cc.")
  | [] =>
      match getattr m "bcc" [] with
      | _ :: _ => Raise (UnsupportedParam
          "The SparkPost Django email backend does not currently support bcc.")
      | [] =>
          match getattr m "reply_to" [] with
          | _ :: _ => Raise (UnsupportedParam
              "The SparkPost Django email backend does not currently support reply_to.")
          | [] => Ok tt
          end
      end
  end.
Proof.
  unfold check_unsupported, unsupported_params.
  cbn [check_unsupported_loop].
  destruct (getattr m "cc" []); [|reflexivity].
  destruct (getattr m "bcc" []); [|reflexivity].
  destruct (getattr m "reply_to" []); reflexivity.
Qed.

Lemma check_unsupported_ok (m : EmailMessage) :
  no_unsupported_params m -> check_unsupported m = Ok tt.
Proof.
  intros (Hcc & Hbcc & Hreply).
  rewrite check_unsupported_cases, Hcc, Hbcc, Hreply. reflexivity.
Qed.

Lemma check_attachments_ok (m : EmailMessage) :
  attachments m = [] -> check_attachments m = Ok tt.
Proof. unfold check_attachments. intros ->. reflexivity. Qed.

Lemma check_inline_template_ok (cfg : gmap string value) :
  dict_in "html" cfg = dict_in "text" cfg ->
  check_inline_template cfg = Ok tt.
Proof.
  unfold check_inline_template. intros ->.
  rewrite Bool.eqb_reflx. reflexivity.
Qed.

Lemma check_inline_template_xor (cfg : gmap string value) :
  dict_in "html" cfg <> dict_in "text" cfg ->
  check_inline_template cfg = Raise (InvalidInlineTemplate
    "Both 'html' and 'text' must be present in 'EmailMessage.sparkpost'").
Proof.
  unfold check_inline_template. intros H.
  destruct (Bool.eqb (dict_in "html" cfg) (dict_in "text" cfg)) eqn:E.
  - apply Bool.eqb_prop in E. contradiction.
  - reflexivity.
Qed.

(** A dictionary that has a key is not empty, hence true in a test. *)
Lemma cfg_truthy_lookup (cfg : gmap string value) (k : string) (v : value) :
  cfg !! k = Some v -> cfg_truthy (Some cfg) = true.
Proof.
  intros H. unfold cfg_truthy.
  destruct (Nat.eqb (size cfg) 0) eqn:E; [|reflexivity].
  apply Nat.eqb_eq in E. apply map_size_empty_inv in E.
  subst cfg. rewrite lookup_empty in H. discriminate.
Qed.

(** ** Unsupported envelope fields and attachments *)

(** C8. A message with a non-empty cc, bcc or reply-to list makes [_send]
    fail with [UnsupportedParam] and the remote is not called.  The three
    lists are examined in the order cc, bcc, reply-to and the first
    non-empty one is the one the error names.  Nothing is assumed of the
    attachments: the check comes before the attachment check, so a message
    with cc addresses and attachments fails with [UnsupportedParam]. *)
Theorem unsupported_param_first (m : EmailMessage) (st : state) :
  getattr m "cc" [] <> [] \/ getattr m "bcc" [] <> [] \/
    getattr m "reply_to" [] <> [] ->
  (exists msg, send m st = (Raise (UnsupportedParam msg), st)) /\
  (getattr m "cc" [] <> [] ->
   send m st = (Raise (UnsupportedParam
     "The SparkPost Django email backend does not currently support cc."), st)) /\
  (getattr m "cc" [] = [] -> getattr m "bcc" [] <> [] ->
   send m st = (Raise (UnsupportedParam
     "The SparkPost Django email backend does not currently support bcc."), st)) /\
  (getattr m "cc" [] = [] -> getattr m "bcc" [] = [] ->
   getattr m "reply_to" [] <> [] ->
   send m st = (Raise (UnsupportedParam
     "The SparkPost Django email backend does not currently support reply_to."), st)).
Proof.
  intros H.
  assert (E : forall e, check_unsupported m = Raise e ->
                        send m st = (Raise e, st)).
  { intros e He. apply _send_invalid. unfold translate. rewrite He.
    reflexivity. }
  pose proof (check_unsupported_cases m) as C.
  destruct (getattr m "cc" []) as [|c cs].
  - destruct (getattr m "bcc" []) as [|b bs].
    + destruct (getattr m "reply_to" []) as [|r rs].
      * exfalso. destruct H as [H|[H|H]]; apply H; reflexivity.
      * repeat split; try (intros; congruence); eauto.
    + repeat split; try (intros; congruence); eauto.
  - repeat split; try (intros; congruence); eauto.
Qed.

(** C9. A message with one or more attachments and no cc, bcc or reply-to
    address makes [_send] fail with [UnsupportedContent], and the remote is
    not called. *)
Theorem attachments_unsupported (m : EmailMessage) (st : state) :
  no_unsupported_params m ->
  attachments m <> [] ->
  send m st = (Raise (UnsupportedContent
    "The SparkPost Django email backend does not currently support attachment."),
    st).
Proof.
  intros Hp Ha. apply _send_invalid. unfold translate.
  rewrite (check_unsupported_ok m Hp). unfold check_attachments.
  destruct (attachments m); [contradiction|reflexivity].
Qed.

(** ** The alternatives loop *)

Lemma apply_alternatives_loop (m : EmailMessage) (params : gmap string value) :
  apply_alternatives m params =
  match alternatives m with
  | Some alts => alternatives_loop alts params
  | None => Ok params
  end.
Proof.
  unfold apply_alternatives.
  destruct (alternatives m) as [[|a alts]|]; reflexivity.
Qed.

Lemma alternatives_loop_raise (alts : list (string * string)) :
  forall (params : gmap string value) (e : exn),
  alternatives_loop alts params = Raise e ->
  exists msg, e = UnsupportedContent msg.
Proof.
  induction alts as [|a alts IH]; intros params e; cbn [alternatives_loop].
  - discriminate.
  - destruct (String.eqb (snd a) "text/html").
    + apply IH.
    + intros [= <-]. eauto.
Qed.

Lemma alternatives_loop_unsupported (alts : list (string * string)) :
  Exists (fun a => snd a <> "text/html") alts ->
  forall params : gmap string value,
  exists msg, alternatives_loop alts params = Raise (UnsupportedContent msg).
Proof.
  induction 1 as [a alts Ha|a alts _ IH]; intros params;
    cbn [alternatives_loop].
  - apply String.eqb_neq in Ha. rewrite Ha. eauto.
  - destruct (String.eqb (snd a) "text/html"); eauto.
Qed.

Lemma alternatives_loop_html (alts : list (string * string)) :
  Forall (fun a => snd a = "text/html") alts ->
  forall params : gmap string value,
  exists q, alternatives_loop alts params = Ok q.
Proof.
  induction 1 as [|a alts Ha _ IH]; intros params; cbn [alternatives_loop].
  - eauto.
  - rewrite Ha. cbn. apply IH.
Qed.

(** The loop writes the key html and no other. *)
Lemma alternatives_loop_other (alts : list (string * string)) :
  forall (params q : gmap string value) (k : string),
  alternatives_loop alts params = Ok q ->
  k <> "html" -> q !! k = params !! k.
Proof.
  induction alts as [|a alts IH]; intros params q k; cbn [alternatives_loop].
  - intros [= <-] _. reflexivity.
  - destruct (String.eqb (snd a) "text/html"); [|discriminate].
    intros H Hk. rewrite (IH _ _ _ H Hk).
    apply lookup_insert_ne. congruence.
Qed.

(** After the loop, html is the content of the last part. *)
Lemma alternatives_loop_last (pre : list (string * string)) (a : string * string) :
  forall params q : gmap string value,
  alternatives_loop (pre ++ [a]) params = Ok q ->
  q !! "html" = Some (VStr (fst a)).
Proof.
  induction pre as [|b pre IH]; intros params q; cbn [alternatives_loop app].
  - destruct (String.eqb (snd a) "text/html"); [|discriminate].
    intros [= <-]. apply lookup_insert_eq.
  - destruct (String.eqb (snd b) "text/html"); [|discriminate].
    apply IH.
Qed.

Lemma apply_alternatives_other (m : EmailMessage)
    (params q : gmap string value) (k : string) :
  apply_alternatives m params = Ok q ->
  k <> "html" -> q !! k = params !! k.
Proof.
  rewrite apply_alternatives_loop.
  destruct (alternatives m) as [alts|].
  - apply alternatives_loop_other.
  - intros [= <-] _. reflexivity.
Qed.

(** ** The override step *)

Lemma apply_cfg_raise (m : EmailMessage) (params : gmap string value) (e : exn) :
  apply_cfg m params = Raise e ->
  exists cfg msg, sparkpost m = Some cfg /\
    dict_in "html" cfg <> dict_in "text" cfg /\ e = InvalidInlineTemplate msg.
Proof.
  unfold apply_cfg. destruct (sparkpost m) as [cfg|]; [|discriminate].
  destruct (cfg_truthy (Some cfg)); [|discriminate].
  unfold check_inline_template.
  destruct (Bool.eqb (dict_in "html" cfg) (dict_in "text" cfg)) eqn:E;
    cbn; [discriminate|].
  intros [= <-]. exists cfg. eexists. repeat split.
  intros H. rewrite H, Bool.eqb_reflx in E. discriminate.
Qed.

Lemma apply_cfg_ok (m : EmailMessage) (params : gmap string value) :
  inline_template_ok m -> exists q, apply_cfg m params = Ok q.
Proof.
  unfold inline_template_ok, apply_cfg.
  destruct (sparkpost m) as [cfg|]; [|eauto].
  intros H. destruct (cfg_truthy (Some cfg)); [|eauto].
  rewrite (check_inline_template_ok cfg H). eauto.
Qed.

(** What the override step leaves in [params] when the override is a
    non-empty dictionary that passes the inline-template check. *)
Lemma apply_cfg_merge (m : EmailMessage) (cfg params q : gmap string value)
    (k0 : string) (v0 : value) :
  sparkpost m = Some cfg ->
  cfg !! k0 = Some v0 ->
  apply_cfg m params = Ok q ->
  q = dict_update
        (if truthy (dict_get cfg "template")
         then dict_pop "text" params else params) cfg.
Proof.
  intros Hs Hk. unfold apply_cfg. rewrite Hs.
  rewrite (cfg_truthy_lookup cfg k0 v0 Hk).
  destruct (check_inline_template cfg); [|discriminate].
  intros [= <-]. reflexivity.
Qed.

(** Every key of the override is in the merged dictionary, with the
    override's value. *)
Lemma dict_update_lookup (params cfg : gmap string value) (k : string) (v : value) :
  cfg !! k = Some v -> dict_update params cfg !! k = Some v.
Proof. intros H. unfold dict_update. apply lookup_union_Some_l. exact H. Qed.

Lemma dict_update_lookup_None (params cfg : gmap string value) (k : string) :
  cfg !! k = None -> dict_update params cfg !! k = params !! k.
Proof. intros H. unfold dict_update. apply lookup_union_r. exact H. Qed.

(** With a true stored-template reference, the text key after the override
    step is the override's own, if it has one, and is absent otherwise. *)
Lemma apply_cfg_template_text (m : EmailMessage) (cfg params q : gmap string value) :
  sparkpost m = Some cfg ->
  truthy (dict_get cfg "template") = true ->
  apply_cfg m params = Ok q ->
  q !! "text" = cfg !! "text".
Proof.
  intros Hs Ht Hq.
  assert (exists v, cfg !! "template" = Some v) as [v Hv].
  { unfold dict_get in Ht. destruct (cfg !! "template"); [eauto|discriminate]. }
  rewrite (apply_cfg_merge m cfg params q _ _ Hs Hv Hq), Ht.
  destruct (cfg !! "text") as [tv|] eqn:E.
  - apply dict_update_lookup. exact E.
  - rewrite (dict_update_lookup_None _ _ _ E).
    unfold dict_pop. apply lookup_delete_eq.
Qed.

(** ** [translate] on messages that pass the first two checks *)

Lemma translate_checked (m : EmailMessage) :
  no_unsupported_params m -> attachments m = [] ->
  translate m =
  match apply_cfg m (base_params m) with
  | Raise e => Raise e
  | Ok params => apply_alternatives m params
  end.
Proof.
  intros Hp Ha. unfold translate.
  rewrite (check_unsupported_ok m Hp), (check_attachments_ok m Ha).
  reflexivity.
Qed.

(** The two steps [translate] is made of, when it succeeds. *)
Lemma translate_steps (m : EmailMessage) (params : gmap string value) :
  translate m = Ok params ->
  exists q, apply_cfg m (base_params m) = Ok q /\
            apply_alternatives m q = Ok params.
Proof.
  unfold translate.
  destruct (check_unsupported m); [|discriminate].
  destruct (check_attachments m); [|discriminate].
  destruct (apply_cfg m (base_params m)) as [q|]; [|discriminate].
  eauto.
Qed.

Lemma translate_ok (m : EmailMessage) :
  no_unsupported_params m -> attachments m = [] ->
  inline_template_ok m -> alternatives_html m ->
  exists params, translate m = Ok params.
Proof.
  intros Hp Ha Hi Hh. rewrite (translate_checked m Hp Ha).
  destruct (apply_cfg_ok m (base_params m) Hi) as [q ->].
  rewrite apply_alternatives_loop. unfold alternatives_html in Hh.
  destruct (alternatives m) as [alts|]; [|eauto].
  apply alternatives_loop_html. exact Hh.
Qed.

(** ** Inline templates *)

(** C5, as amended.  For a message that passes the cc/bcc/reply-to check and
    the attachment check, and whose [sparkpost] attribute has exactly one of
    the keys html and text, [_send] fails with [InvalidInlineTemplate] and
    the remote is not called.  An attribute with both keys, or with neither,
    passes [check_inline_template], and the validation of such a message
    never ends in [InvalidInlineTemplate]. *)
Theorem inline_template_validation (m : EmailMessage)
    (cfg : gmap string value) (st : state) :
  no_unsupported_params m ->
  attachments m = [] ->
  sparkpost m = Some cfg ->
  (dict_in "html" cfg <> dict_in "text" cfg ->
   send m st = (Raise (InvalidInlineTemplate
     "Both 'html' and 'text' must be present in 'EmailMessage.sparkpost'"),
     st)) /\
  (dict_in "html" cfg = dict_in "text" cfg ->
   check_inline_template cfg = Ok tt /\
   forall msg, translate m <> Raise (InvalidInlineTemplate msg)).
Proof.
  intros Hp Ha Hs. split.
  - intros Hx. apply _send_invalid.
    rewrite (translate_checked m Hp Ha). unfold apply_cfg. rewrite Hs.
    assert (cfg_truthy (Some cfg) = true) as ->.
    { unfold dict_in in Hx.
      destruct (cfg !! "html") as [v|] eqn:Eh.
      - exact (cfg_truthy_lookup cfg _ _ Eh).
      - destruct (cfg !! "text") as [v|] eqn:Et.
        + exact (cfg_truthy_lookup cfg _ _ Et).
        + contradiction. }
    rewrite (check_inline_template_xor cfg Hx). reflexivity.
  - intros He. split; [exact (check_inline_template_ok cfg He)|].
    intros msg. rewrite (translate_checked m Hp Ha).
    destruct (apply_cfg m (base_params m)) as [q|e] eqn:E.
    + rewrite apply_alternatives_loop.
      destruct (alternatives m) as [alts|]; [|discriminate].
      intros H. apply alternatives_loop_raise in H as [msg' H].
      discriminate.
    + apply apply_cfg_raise in E as (cfg' & msg' & Hs' & Hx & _).
      rewrite Hs in Hs'. injection Hs' as <-. contradiction.
Qed.

(** ** Stored templates *)

(** C6. When the [sparkpost] attribute of a message is a stored-template
    reference and nothing else, the parameters that reach the remote have
    no text key.  The reference is any value Python takes for true, such as
    the string "t".  Such a message does reach the remote when it passes the
    other checks. *)
Theorem stored_template_drops_text (m : EmailMessage) (t : value) (st : state) :
  sparkpost m = Some {[ "template" := t ]} ->
  truthy t = true ->
  (forall params, reaches m st params -> params !! "text" = None) /\
  (no_unsupported_params m -> attachments m = [] -> alternatives_html m ->
   exists params, reaches m st params).
Proof.
  intros Hs Ht. split.
  - intros params H. apply dispatched_translate in H.
    apply translate_steps in H as (q & Hq & Hp).
    rewrite (apply_alternatives_other m q params "text" Hp) by discriminate.
    rewrite (apply_cfg_template_text m _ (base_params m) q Hs); [| |exact Hq].
    + apply lookup_singleton_ne. discriminate.
    + unfold dict_get. rewrite lookup_singleton_eq. exact Ht.
  - intros Hp Ha Hh.
    destruct (translate_ok m Hp Ha) as [params H]; [|exact Hh|].
    + unfold inline_template_ok. rewrite Hs. reflexivity.
    + exists params. apply dispatched_translate. exact H.
Qed.

(** C10. When the [sparkpost] attribute has a true stored-template
    reference together with a text key and an html key, the parameters that
    reach the remote have the override's text: the base text is removed
    before the override is merged, and the merge adds the override's own. *)
Theorem override_text_survives_template (m : EmailMessage)
    (cfg : gmap string value) (tv : value) (st : state) :
  sparkpost m = Some cfg ->
  truthy (dict_get cfg "template") = true ->
  cfg !! "text" = Some tv ->
  is_Some (cfg !! "html") ->
  (forall params, reaches m st params -> params !! "text" = Some tv) /\
  (no_unsupported_params m -> attachments m = [] -> alternatives_html m ->
   exists params, reaches m st params).
Proof.
  intros Hs Ht Htext [hv Hhtml]. split.
  - intros params H. apply dispatched_translate in H.
    apply translate_steps in H as (q & Hq & Hp).
    rewrite (apply_alternatives_other m q params "text" Hp) by discriminate.
    rewrite (apply_cfg_template_text m cfg _ q Hs Ht Hq). exact Htext.
  - intros Hp Ha Hh.
    destruct (translate_ok m Hp Ha) as [params H]; [|exact Hh|].
    + unfold inline_template_ok, dict_in. rewrite Hs, Htext, Hhtml.
      reflexivity.
    + exists params. apply dispatched_translate. exact H.
Qed.

(** ** Alternative parts *)

(** C3. The override is merged first and the alternative part is assigned
    last.  For a message with exactly one alternative part, of html type,
    and an override that has an html key, the parameters that reach the
    remote have the content of the part under html, and the override's
    value under every other key of the override.  Such a message does reach
    the remote when it passes the other checks. *)
Theorem alternative_html_assigned_last (m : EmailMessage) (content : string)
    (cfg : gmap string value) (st : state) :
  alternatives m = Some [(content, "text/html")] ->
  sparkpost m = Some cfg ->
  is_Some (cfg !! "html") ->
  (forall params, reaches m st params ->
     params !! "html" = Some (VStr content) /\
     forall k v, k <> "html" -> cfg !! k = Some v -> params !! k = Some v) /\
  (no_unsupported_params m -> attachments m = [] -> is_Some (cfg !! "text") ->
   exists params, reaches m st params).
Proof.
  intros Halt Hs [hv Hhtml]. split.
  - intros params H. apply dispatched_translate in H.
    apply translate_steps in H as (q & Hq & Hp). split.
    + rewrite apply_alternatives_loop, Halt in Hp.
      exact (alternatives_loop_last [] (content, "text/html") q params Hp).
    + intros k v Hk Hv.
      rewrite (apply_alternatives_other m q params k Hp Hk).
      rewrite (apply_cfg_merge m cfg _ q _ _ Hs Hhtml Hq).
      apply dict_update_lookup. exact Hv.
  - intros Hp Ha [tv Htext].
    destruct (translate_ok m Hp Ha) as [params H].
    + unfold inline_template_ok, dict_in. rewrite Hs, Htext, Hhtml.
      reflexivity.
    + unfold alternatives_html. rewrite Halt.
      repeat constructor.
    + exists params. apply dispatched_translate. exact H.
Qed.

(** C7, as amended.  For a message that passes the cc/bcc/reply-to check, the
    attachment check and the inline-template check: if one of its
    alternative parts is not of html type, [_send] fails with
    [UnsupportedContent] and the remote is not called; if all its parts are
    of html type, however many they are, the message reaches the remote,
    with the content of the last part under html. *)
Theorem unsupported_alternative (m : EmailMessage)
    (alts : list (string * string)) (st : state) :
  no_unsupported_params m ->
  attachments m = [] ->
  inline_template_ok m ->
  alternatives m = Some alts ->
  (Exists (fun a => snd a <> "text/html") alts ->
   exists msg, send m st = (Raise (UnsupportedContent msg), st)) /\
  (Forall (fun a => snd a = "text/html") alts ->
   exists params, reaches m st params /\
     forall pre a, alts = (pre ++ [a])%list ->
       params !! "html" = Some (VStr (fst a))).
Proof.
  intros Hp Ha Hi Halt. split.
  - intros Hex.
    destruct (apply_cfg_ok m (base_params m) Hi) as [q Hq].
    destruct (alternatives_loop_unsupported alts Hex q) as [msg Hmsg].
    exists msg. apply _send_invalid.
    rewrite (translate_checked m Hp Ha), Hq, apply_alternatives_loop, Halt.
    exact Hmsg.
  - intros Hall.
    destruct (translate_ok m Hp Ha Hi) as [params H].
    + unfold alternatives_html. rewrite Halt. exact Hall.
    + exists params. split; [apply dispatched_translate; exact H|].
      intros pre a ->.
      apply translate_steps in H as (q & _ & Hq).
      rewrite apply_alternatives_loop, Halt in Hq.
      exact (alternatives_loop_last pre a q params Hq).
Qed.

(** ** Provider errors *)

Lemma any_1603_true (errors : list error_record) :
  Exists (fun err => code err = "1603") errors -> any_1603 errors = true.
Proof.
  unfold any_1603. induction 1 as [err errors H|err errors _ IH]; cbn.
  - rewrite H. reflexivity.
  - rewrite IH. apply orb_true_r.
Qed.

Lemma any_1603_false (errors : list error_record) :
  Forall (fun err => code err <> "1603") errors -> any_1603 errors = false.
Proof.
  unfold any_1603. induction 1 as [|err errors H _ IH]; cbn.
  - reflexivity.
  - apply String.eqb_neq in H. rewrite H, IH. reflexivity.
Qed.

(** C4. When the remote capability, called with the parameters of a
    message, raises a provider error: if the error list has an entry with
    code "1603", [_send] fails with [InvalidStoredTemplate] carrying the
    original error; if it has none, [_send] fails with the original error
    itself.  In both cases the remote was called once. *)
Theorem provider_error_translation (m : EmailMessage) (st : state)
    (params : gmap string value) (errors : list error_record) (w' : World) :
  reaches m st params ->
  transmissions_send params (world st)
    = (Raise (SparkPostAPIException errors), w') ->
  (Exists (fun err => code err = "1603") errors ->
   send m st =
     (Raise (InvalidStoredTemplate (SparkPostAPIException errors)),
      {| world := w'; calls := (calls st ++ [params])%list |})) /\
  (Forall (fun err => code err <> "1603") errors ->
   send m st =
     (Raise (SparkPostAPIException errors),
      {| world := w'; calls := (calls st ++ [params])%list |})).
Proof.
  intros H Hr. apply dispatched_translate in H.
  rewrite (_send_valid m st params H).
  unfold dispatch, try_except, client_transmissions_send, raise.
  rewrite Hr. split; intros He.
  - rewrite (any_1603_true errors He). reflexivity.
  - rewrite (any_1603_false errors He). reflexivity.
Qed.

(** ** Batches *)

Lemma send_ok_calls (m : EmailMessage) (st st1 : state) (r : response) :
  send m st = (Ok r, st1) ->
  exists params, calls st1 = (calls st ++ [params])%list.
Proof.
  intros H. pose proof (_send_translate m st) as T. rewrite H in T.
  destruct (translate m) as [params|e]; [|discriminate].
  exists params. rewrite <- (dispatch_calls params st), <- T. reflexivity.
Qed.

Lemma send_loop_all_sent (fs : bool) (msgs : list EmailMessage)
    (st st' : state) (rs : list response) :
  batch_sent msgs st rs st' ->
  forall success,
  send_loop fs msgs success st = (Ok (success + sum_accepted rs), st').
Proof.
  induction 1 as [st|m rest st r st1 rs st2 Hm _ IH]; intros success;
    cbn [send_messages_loop].
  - unfold ret, sum_accepted. cbn. rewrite Z.add_0_r. reflexivity.
  - rewrite Hm, IH. unfold sum_accepted. cbn [map fold_right].
    rewrite Z.add_assoc. reflexivity.
Qed.

Lemma all_sent_calls (msgs : list EmailMessage) (st st' : state)
    (rs : list response) :
  batch_sent msgs st rs st' ->
  exists ps, calls st' = (calls st ++ ps)%list /\
             List.length ps = List.length msgs.
Proof.
  induction 1 as [st|m rest st r st1 rs st2 Hm _ (ps & IH & Hlen)].
  - exists []. rewrite app_nil_r. split; reflexivity.
  - destruct (send_ok_calls m st st1 r Hm) as [p Hp].
    exists (p :: ps). split.
    + rewrite IH, Hp, <- app_assoc. reflexivity.
    + cbn. rewrite Hlen. reflexivity.
Qed.

(** C1. When every message of a batch is translated and dispatched with
    success, [send_messages] returns the sum of the accepted counts of the
    responses, and the remote capability has been called once per message:
    the log of calls has grown by as many entries as the batch has
    messages. *)
Theorem send_messages_sum (fs : bool) (msgs : list EmailMessage)
    (st st' : state) (rs : list response) :
  batch_sent msgs st rs st' ->
  send_all fs msgs st = (Ok (sum_accepted rs), st') /\
  List.length rs = List.length msgs /\
  exists ps, calls st' = (calls st ++ ps)%list /\
             List.length ps = List.length msgs.
Proof.
  intros H. split; [|split].
  - unfold send_messages. rewrite (send_loop_all_sent fs msgs st st' rs H).
    reflexivity.
  - induction H; cbn; congruence.
  - exact (all_sent_calls msgs st st' rs H).
Qed.

Lemma send_loop_app (fs : bool) (a b : list EmailMessage) :
  forall (success : Z) (st : state),
  send_loop fs (a ++ b) success st =
  match send_loop fs a success st with
  | (Ok n, st1) => send_loop fs b n st1
  | (Raise e, st1) => (Raise e, st1)
  end.
Proof.
  induction a as [|m a IH]; intros success st;
    cbn [send_messages_loop app].
  - reflexivity.
  - destruct (send m st) as [[r|e] st1].
    + apply IH.
    + destruct (negb fs); [reflexivity|apply IH].
Qed.

Lemma send_loop_success (fs : bool) (msgs : list EmailMessage) :
  forall (success : Z) (st : state),
  send_loop fs msgs success st =
  match send_loop fs msgs 0 st with
  | (Ok n, st1) => (Ok (success + n), st1)
  | (Raise e, st1) => (Raise e, st1)
  end.
Proof.
  induction msgs as [|m msgs IH]; intros success st;
    cbn [send_messages_loop].
  - unfold ret. rewrite Z.add_0_r. reflexivity.
  - destruct (send m st) as [[r|e] st1].
    + rewrite IH, (IH (0 + total_accepted_recipients r)).
      destruct (send_loop fs msgs 0 st1) as [[n|e] st2]; [|reflexivity].
      rewrite Z.add_assoc. reflexivity.
    + destruct (negb fs); [reflexivity|apply IH].
Qed.

(** In fail-silently mode a batch never raises. *)
Lemma send_loop_silent (msgs : list EmailMessage) :
  forall (success : Z) (st : state),
  exists n st', send_loop true msgs success st = (Ok n, st').
Proof.
  induction msgs as [|m msgs IH]; intros success st;
    cbn [send_messages_loop].
  - unfold ret. eauto.
  - destruct (send m st) as [[r|e] st1]; cbn; apply IH.
Qed.

(** C2. Let the messages before [m] in a batch be processed without an
    error reaching the caller, with total [n1], and let [_send m] raise [e].
    In fail-silently mode the error is suppressed, [m] adds zero to the
    total, and the messages after [m] are processed from the state [m]
    left: the batch returns [n1 + 0 + n3], where [n3] is their total.
    Otherwise the batch raises [e] in the state [m] left: no later message
    is sent. *)
Theorem send_messages_error (fs : bool) (pre post : list EmailMessage)
    (m : EmailMessage) (st st1 st2 : state) (n1 : Z) (e : exn) :
  send_all fs pre st = (Ok n1, st1) ->
  send m st1 = (Raise e, st2) ->
  (fs = true ->
   exists n3 st3,
     send_all true post st2 = (Ok n3, st3) /\
     send_all true (pre ++ m :: post) st = (Ok (n1 + 0 + n3), st3)) /\
  (fs = false ->
   send_all false (pre ++ m :: post) st = (Raise e, st2)).
Proof.
  unfold send_messages. intros Hpre Hm.
  assert (Happ : send_loop fs (pre ++ m :: post) 0 st =
                 if negb fs then (Raise e, st2)
                 else send_loop fs post n1 st2).
  { rewrite send_loop_app, Hpre. cbn [send_messages_loop].
    rewrite Hm. reflexivity. }
  split; intros ->; cbn in Happ.
  - destruct (send_loop_silent post 0 st2) as (n3 & st3 & H3).
    exists n3, st3. split; [exact H3|].
    rewrite Happ, send_loop_success, H3, Z.add_0_r. reflexivity.
  - exact Happ.
Qed.

End BackendFacts.

(** * The properties on concrete messages, with the scripted remote *)

Local Abbreviation msend := (_send mock_world mock_send).
Local Abbreviation msend_all := (send_messages mock_world mock_send).

Lemma plain_message_supported : no_unsupported_params plain_message.
Proof. repeat split. Qed.

(** Two messages accepted for 1 and for 10 recipients: the batch returns 11
    and the remote was called twice. *)
Lemma send_messages_sum_witness :
  all_sent mock_send [plain_message; plain_message]
    (mock_state [accepted 1; accepted 10])
    [response_of 1; response_of 10]
    (mock_log [] [base_params plain_message; base_params plain_message]) /\
  msend_all false [plain_message; plain_message]
    (mock_state [accepted 1; accepted 10])
  = (Ok 11, mock_log [] [base_params plain_message; base_params plain_message]).
Proof.
  assert (H : all_sent mock_send [plain_message; plain_message]
                (mock_state [accepted 1; accepted 10])
                [response_of 1; response_of 10]
                (mock_log [] [base_params plain_message;
                              base_params plain_message])).
  { apply (all_sent_cons _ mock_send _ _ _ _
             (mock_log [accepted 10] [base_params plain_message]));
      [vm_compute; reflexivity|].
    apply (all_sent_cons _ mock_send _ _ _ _
             (mock_log [] [base_params plain_message;
                           base_params plain_message]));
      [vm_compute; reflexivity|].
    apply all_sent_nil. }
  split; [exact H|].
  exact (proj1 (send_messages_sum mock_world mock_send false _ _ _ _ H)).
Defined.

(** Three messages, the remote raising on the second: in fail-silently
    mode the batch returns 1 + 0 + 10 after three calls; otherwise it
    raises after two calls. *)
Lemma send_messages_error_witness :
  msend_all true [plain_message; plain_message; plain_message]
    (mock_state [accepted 1; Raise (OtherException "i should not be raised");
                 accepted 10])
  = (Ok 11, mock_log [] [base_params plain_message; base_params plain_message;
                         base_params plain_message]) /\
  msend_all false [plain_message; plain_message; plain_message]
    (mock_state [accepted 1; Raise (OtherException "i should be raised");
                 accepted 10])
  = (Raise (OtherException "i should be raised"),
     mock_log [accepted 10]
       [base_params plain_message; base_params plain_message]).
Proof.
  split.
  - destruct (send_messages_error mock_world mock_send true
                [plain_message] [plain_message] plain_message
                (mock_state [accepted 1;
                             Raise (OtherException "i should not be raised");
                             accepted 10])
                (mock_log [Raise (OtherException "i should not be raised");
                           accepted 10] [base_params plain_message])
                (mock_log [accepted 10]
                   [base_params plain_message; base_params plain_message])
                1 (OtherException "i should not be raised"))
      as [Hsilent _]; [vm_compute; reflexivity | vm_compute; reflexivity |].
    destruct (Hsilent eq_refl) as (n3 & st3 & Hpost & Hall).
    vm_compute in Hpost. injection Hpost as <- <-. exact Hall.
  - destruct (send_messages_error mock_world mock_send false
                [plain_message] [plain_message] plain_message
                (mock_state [accepted 1;
                             Raise (OtherException "i should be raised");
                             accepted 10])
                (mock_log [Raise (OtherException "i should be raised");
                           accepted 10] [base_params plain_message])
                (mock_log [accepted 10]
                   [base_params plain_message; base_params plain_message])
                1 (OtherException "i should be raised"))
      as [_ Hloud]; [vm_compute; reflexivity | vm_compute; reflexivity |].
    exact (Hloud eq_refl).
Defined.

(** An html part and an override with an html key: html is the part's. *)
Lemma alternative_html_assigned_last_witness :
  exists params,
    dispatched mock_send (with_sparkpost inline_cfg html_message)
      (mock_state []) params /\
    inline_cfg !! "html" = Some (VStr "<p>template content</>") /\
    params !! "html" = Some (VStr "<p>Hello There</p>") /\
    params !! "text" = Some (VStr "template content").
Proof.
  destruct (alternative_html_assigned_last mock_world mock_send
              (with_sparkpost inline_cfg html_message) "<p>Hello There</p>"
              inline_cfg (mock_state []))
    as [Hlast Hreach];
    [reflexivity | reflexivity | eexists; vm_compute; reflexivity |].
  destruct Hreach as [params Hp];
    [exact plain_message_supported | reflexivity
    | eexists; vm_compute; reflexivity |].
  exists params. destruct (Hlast params Hp) as [Hhtml Hother].
  split; [exact Hp|].
  split; [vm_compute; reflexivity|].
  split; [exact Hhtml|].
  apply Hother; [discriminate | vm_compute; reflexivity].
Defined.

(** The provider reports code 1603, or another code. *)
Lemma provider_error_translation_witness :
  msend plain_message (mock_state [Raise template_not_found])
  = (Raise (InvalidStoredTemplate template_not_found),
     mock_log [] [base_params plain_message]) /\
  msend plain_message (mock_state [Raise invalid_domain])
  = (Raise invalid_domain, mock_log [] [base_params plain_message]).
Proof.
  split.
  - refine (proj1 (provider_error_translation mock_world mock_send
                     plain_message (mock_state [Raise template_not_found])
                     (base_params plain_message) _ [] _ _) _).
    + vm_compute. reflexivity.
    + reflexivity.
    + constructor. reflexivity.
  - refine (proj2 (provider_error_translation mock_world mock_send
                     plain_message (mock_state [Raise invalid_domain])
                     (base_params plain_message) _ [] _ _) _).
    + vm_compute. reflexivity.
    + reflexivity.
    + repeat constructor. discriminate.
Defined.

(** Only text in the override: the inline-template check fails. *)
Lemma inline_template_validation_witness :
  msend (with_sparkpost text_only_cfg plain_message) (mock_state [accepted 1])
  = (Raise (InvalidInlineTemplate
       "Both 'html' and 'text' must be present in 'EmailMessage.sparkpost'"),
     mock_state [accepted 1]) /\
  check_inline_template inline_cfg = Ok tt.
Proof.
  split.
  - refine (proj1 (inline_template_validation mock_world mock_send
                     (with_sparkpost text_only_cfg plain_message)
                     text_only_cfg (mock_state [accepted 1]) _ _ _) _).
    + exact plain_message_supported.
    + reflexivity.
    + reflexivity.
    + vm_compute. discriminate.
  - refine (proj1 (proj2 (inline_template_validation mock_world mock_send
                     (with_sparkpost inline_cfg plain_message)
                     inline_cfg (mock_state []) _ _ _) _)).
    + exact plain_message_supported.
    + reflexivity.
    + reflexivity.
    + vm_compute. reflexivity.
Defined.

(** A message with cc addresses and an html-only override fails on the cc
    addresses: the claim of C5 without its precondition does not hold. *)
Lemma inline_template_counterexample :
  sparkpost (with_cc ["cc1@example.com"]
               (with_sparkpost html_only_cfg plain_message))
    = Some html_only_cfg /\
  dict_in "html" html_only_cfg = true /\
  dict_in "text" html_only_cfg = false /\
  msend (with_cc ["cc1@example.com"]
           (with_sparkpost html_only_cfg plain_message)) (mock_state [])
  = (Raise (UnsupportedParam
       "The SparkPost Django email backend does not currently support cc."),
     mock_state []) /\
  ~ exists msg,
      fst (msend (with_cc ["cc1@example.com"]
                    (with_sparkpost html_only_cfg plain_message))
             (mock_state []))
      = Raise (InvalidInlineTemplate msg).
Proof.
  split; [reflexivity|].
  split; [vm_compute; reflexivity|].
  split; [vm_compute; reflexivity|].
  split; [vm_compute; reflexivity|].
  intros [msg H]. vm_compute in H. discriminate.
Qed.

(** The override is a stored-template reference alone: no text is sent. *)
Lemma stored_template_drops_text_witness :
  exists params,
    dispatched mock_send (with_sparkpost stored_cfg plain_message)
      (mock_state []) params /\
    params !! "text" = None /\
    params !! "template" = Some (VStr "t").
Proof.
  destruct (stored_template_drops_text mock_world mock_send
              (with_sparkpost stored_cfg plain_message) (VStr "t")
              (mock_state []))
    as [Hdrop Hreach]; [reflexivity | reflexivity |].
  destruct Hreach as [params Hp];
    [exact plain_message_supported | reflexivity | exact I |].
  exists params. split; [exact Hp|].
  split; [exact (Hdrop params Hp)|].
  apply dispatched_translate in Hp. vm_compute in Hp.
  injection Hp as <-. vm_compute. reflexivity.
Defined.

(** A stored-template reference with an inline html and text: the
    override's text is sent. *)
Lemma override_text_survives_template_witness :
  exists params,
    dispatched mock_send (with_sparkpost stored_inline_cfg plain_message)
      (mock_state []) params /\
    params !! "text" = Some (VStr "template content").
Proof.
  destruct (override_text_survives_template mock_world mock_send
              (with_sparkpost stored_inline_cfg plain_message)
              stored_inline_cfg (VStr "template content") (mock_state []))
    as [Htext Hreach];
    [reflexivity | vm_compute; reflexivity | vm_compute; reflexivity
    | eexists; vm_compute; reflexivity |].
  destruct Hreach as [params Hp];
    [exact plain_message_supported | reflexivity | exact I |].
  exists params. split; [exact Hp | exact (Htext params Hp)].
Defined.

(** A part of type text/alien is refused; two html parts are sent, with
    the content of the second. *)
Lemma unsupported_alternative_witness :
  (exists msg, msend alien_message (mock_state [accepted 1])
     = (Raise (UnsupportedContent msg), mock_state [accepted 1])) /\
  (exists params,
     dispatched mock_send two_html_message (mock_state []) params /\
     params !! "html" = Some (VStr "<p>Hello There</p>")).
Proof.
  split.
  - refine (proj1 (unsupported_alternative mock_world mock_send alien_message
                     [("<ppp>non-plain content</ppp>", "text/alien")]
                     (mock_state [accepted 1]) _ _ _ _) _).
    + exact plain_message_supported.
    + reflexivity.
    + exact I.
    + reflexivity.
    + constructor. discriminate.
  - destruct (proj2 (unsupported_alternative mock_world mock_send
                       two_html_message
                       [("<p>Hello</p>", "text/html");
                        ("<p>Hello There</p>", "text/html")]
                       (mock_state []) plain_message_supported
                       eq_refl I eq_refl))
      as (params & Hp & Hlast).
    + repeat constructor.
    + exists params. split; [exact Hp|].
      exact (Hlast [("<p>Hello</p>", "text/html")]
               ("<p>Hello There</p>", "text/html") eq_refl).
Defined.

(** Two alternative parts, both of html type: the message is sent, it is
    not refused with [UnsupportedContent] as C7 says of every message with
    more than one part. *)
Lemma unsupported_alternative_counterexample :
  alternatives two_html_message
    = Some [("<p>Hello</p>", "text/html"); ("<p>Hello There</p>", "text/html")] /\
  msend two_html_message (mock_state [accepted 1])
  = (Ok (response_of 1),
     mock_log [] [<["html" := VStr "<p>Hello There</p>"]>
                    (base_params plain_message)]) /\
  ~ exists msg,
      fst (msend two_html_message (mock_state [accepted 1]))
      = Raise (UnsupportedContent msg).
Proof.
  split; [reflexivity|].
  split; [vm_compute; reflexivity|].
  intros [msg H]. vm_compute in H. discriminate.
Qed.

(** A message with cc addresses and an attachment fails on the cc
    addresses, before the attachment check. *)
Lemma unsupported_param_first_witness :
  msend (with_cc ["cc1@example.com"; "cc2@example.com"] attached_message)
    (mock_state [accepted 1])
  = (Raise (UnsupportedParam
       "The SparkPost Django email backend does not currently support cc."),
     mock_state [accepted 1]).
Proof.
  refine (proj1 (proj2 (unsupported_param_first mock_world mock_send
            (with_cc ["cc1@example.com"; "cc2@example.com"] attached_message)
            (mock_state [accepted 1]) _)) _).
  - left. discriminate.
  - discriminate.
Defined.

(** A message with an attachment and nothing else unsupported. *)
Lemma attachments_unsupported_witness :
  msend attached_message (mock_state [accepted 1])
  = (Raise (UnsupportedContent
       "The SparkPost Django email backend does not currently support attachment."),
     mock_state [accepted 1]).
Proof.
  refine (attachments_unsupported mock_world mock_send attached_message
            (mock_state [accepted 1]) plain_message_supported _).
  discriminate.
Defined.

(** * Further properties of the backend *)

Section BackendMore.

Variable World : Type.
Variable transmissions_send :
  gmap string value -> World -> result response * World.

Local Abbreviation send := (_send World transmissions_send).
Local Abbreviation send_all := (send_messages World transmissions_send).
Local Abbreviation send_loop := (send_messages_loop World transmissions_send).
Local Abbreviation state := (backend_state World).
Local Abbreviation reaches := (dispatched transmissions_send).
Local Abbreviation batch_sent := (all_sent transmissions_send).

(** ** Which messages are dispatched *)

Lemma check_unsupported_inv (m : EmailMessage) :
  check_unsupported m = Ok tt -> no_unsupported_params m.
Proof.
  rewrite check_unsupported_cases. unfold no_unsupported_params.
  destruct (getattr m "cc" []); [|discriminate].
  destruct (getattr m "bcc" []); [|discriminate].
  destruct (getattr m "reply_to" []); [|discriminate].
  intros _. repeat split.
Qed.

Lemma check_unsupported_raise (m : EmailMessage) (e : exn) :
  check_unsupported m = Raise e -> exists msg, e = UnsupportedParam msg.
Proof.
  rewrite check_unsupported_cases.
  destruct (getattr m "cc" []); [|intros [= <-]; eauto].
  destruct (getattr m "bcc" []); [|intros [= <-]; eauto].
  destruct (getattr m "reply_to" []); [discriminate|intros [= <-]; eauto].
Qed.

Lemma check_attachments_inv (m : EmailMessage) :
  check_attachments m = Ok tt -> attachments m = [].
Proof.
  unfold check_attachments. destruct (attachments m); [reflexivity|].
  discriminate.
Qed.

Lemma check_attachments_raise (m : EmailMessage) (e : exn) :
  check_attachments m = Raise e -> exists msg, e = UnsupportedContent msg.
Proof.
  unfold check_attachments.
  destruct (negb (Nat.eqb (List.length (attachments m)) 0));
    [intros [= <-]; eauto|discriminate].
Qed.

Lemma cfg_falsy_empty (cfg : gmap string value) :
  cfg_truthy (Some cfg) = false -> cfg = ∅.
Proof.
  unfold cfg_truthy. intros H. apply negb_false_iff, Nat.eqb_eq in H.
  apply map_size_empty_inv. exact H.
Qed.

Lemma apply_cfg_inv (m : EmailMessage) (params q : gmap string value) :
  apply_cfg m params = Ok q -> inline_template_ok m.
Proof.
  unfold apply_cfg, inline_template_ok.
  destruct (sparkpost m) as [cfg|]; [|trivial].
  destruct (cfg_truthy (Some cfg)) eqn:E.
  - unfold check_inline_template.
    destruct (Bool.eqb (dict_in "html" cfg) (dict_in "text" cfg)) eqn:B;
      cbn; [|discriminate].
    intros _. apply Bool.eqb_prop. exact B.
  - intros _. rewrite (cfg_falsy_empty cfg E). reflexivity.
Qed.

Lemma alternatives_loop_inv (alts : list (string * string)) :
  forall params q : gmap string value,
  alternatives_loop alts params = Ok q ->
  Forall (fun a => snd a = "text/html") alts.
Proof.
  induction alts as [|a alts IH]; intros params q; cbn [alternatives_loop].
  - constructor.
  - destruct (String.eqb (snd a) "text/html") eqn:E; [|discriminate].
    intros H. constructor.
    + apply String.eqb_eq. exact E.
    + exact (IH _ _ H).
Qed.

(** The errors of the validation steps are of three kinds. *)
Lemma translate_raise (m : EmailMessage) (e : exn) :
  translate m = Raise e ->
  exists msg, e = UnsupportedParam msg \/ e = UnsupportedContent msg \/
              e = InvalidInlineTemplate msg.
Proof.
  unfold translate.
  destruct (check_unsupported m) as [[]|e1] eqn:E1.
  - destruct (check_attachments m) as [[]|e2] eqn:E2.
    + destruct (apply_cfg m (base_params m)) as [q|e3] eqn:E3.
      * rewrite apply_alternatives_loop.
        destruct (alternatives m) as [alts|]; [|discriminate].
        intros H. apply alternatives_loop_raise in H as [msg ->]. eauto.
      * intros [= <-].
        apply apply_cfg_raise in E3 as (cfg & msg & _ & _ & ->). eauto.
    + intros [= <-]. apply check_attachments_raise in E2 as [msg ->]. eauto.
  - intros [= <-]. apply check_unsupported_raise in E1 as [msg ->]. eauto.
Qed.

(** X2. A message is dispatched, that is the remote is called with its
    parameters, exactly when it has no cc, bcc or reply-to address, no
    attachment, an override with both or neither of html and text, and
    only html alternative parts. *)
Theorem dispatched_iff_valid (m : EmailMessage) (st : state) :
  (exists params, reaches m st params) <->
  no_unsupported_params m /\ attachments m = [] /\
  inline_template_ok m /\ alternatives_html m.
Proof.
  split.
  - intros [params H]. apply dispatched_translate in H.
    unfold translate in H.
    destruct (check_unsupported m) as [[]|] eqn:E1; [|discriminate].
    destruct (check_attachments m) as [[]|] eqn:E2; [|discriminate].
    destruct (apply_cfg m (base_params m)) as [q|] eqn:E3; [|discriminate].
    split; [exact (check_unsupported_inv m E1)|].
    split; [exact (check_attachments_inv m E2)|].
    split; [exact (apply_cfg_inv m _ q E3)|].
    rewrite apply_alternatives_loop in H. unfold alternatives_html.
    destruct (alternatives m) as [alts|]; [|trivial].
    exact (alternatives_loop_inv alts q params H).
  - intros (Hp & Ha & Hi & Hh).
    destruct (translate_ok m Hp Ha Hi Hh) as [params H].
    exists params. apply dispatched_translate. exact H.
Qed.

(** X3. When [_send] raises and the log of calls is as it was, the whole
    state is as it was and the error is one of the three validation
    errors: [UnsupportedParam], [UnsupportedContent] or
    [InvalidInlineTemplate]. *)
Theorem error_without_call_is_validation (m : EmailMessage) (st st' : state)
    (e : exn) :
  send m st = (Raise e, st') ->
  calls st' = calls st ->
  st' = st /\
  exists msg, e = UnsupportedParam msg \/ e = UnsupportedContent msg \/
              e = InvalidInlineTemplate msg.
Proof.
  intros H Hc. rewrite _send_translate in H.
  destruct (translate m) as [params|e0] eqn:T.
  - exfalso. pose proof (dispatch_calls World transmissions_send params st) as D.
    rewrite H in D. cbn in D. rewrite Hc in D.
    exact (app_singleton_neq _ _ D).
  - injection H as <- <-. split; [reflexivity|].
    exact (translate_raise m e0 T).
Qed.

(** ** The parameters of a plain message *)

Lemma apply_cfg_falsy (m : EmailMessage) (params : gmap string value) :
  cfg_truthy (sparkpost m) = false -> apply_cfg m params = Ok params.
Proof.
  unfold apply_cfg. destruct (sparkpost m) as [cfg|]; [|reflexivity].
  intros ->. reflexivity.
Qed.

(** X1. A message with no cc, bcc or reply-to address and no attachment,
    whose [sparkpost] attribute is absent or an empty dictionary and whose
    alternatives are absent or an empty list, is dispatched with exactly
    four parameters: recipients, from_email, subject and text, taken from
    [to], [from_email], [subject] and [body]. *)
Theorem plain_message_params (m : EmailMessage) (st : state) :
  no_unsupported_params m ->
  attachments m = [] ->
  cfg_truthy (sparkpost m) = false ->
  alternatives m = None \/ alternatives m = Some [] ->
  exists params,
    reaches m st params /\
    dom params = ({[ "recipients"; "from_email"; "subject"; "text" ]} : gset string) /\
    params !! "recipients" = Some (VList (to m)) /\
    params !! "from_email" = Some (VStr (from_email m)) /\
    params !! "subject" = Some (VStr (subject m)) /\
    params !! "text" = Some (VStr (body m)).
Proof.
  intros Hp Ha Hc Halt. exists (base_params m). split.
  - apply dispatched_translate.
    rewrite (translate_checked m Hp Ha), (apply_cfg_falsy m _ Hc).
    rewrite apply_alternatives_loop.
    destruct Halt as [-> | ->]; reflexivity.
  - unfold base_params. split.
    + rewrite !dom_insert_L, dom_empty_L. set_solver.
    + repeat split; simplify_map_eq; reflexivity.
Qed.

(** ** The outcome of the remote call *)

(** X5. When the remote capability returns a response, [_send] returns that
    response unchanged, and the call is the only one made. *)
Theorem send_returns_response (m : EmailMessage) (st : state)
    (params : gmap string value) (r : response) (w' : World) :
  reaches m st params ->
  transmissions_send params (world st) = (Ok r, w') ->
  send m st = (Ok r, {| world := w'; calls := (calls st ++ [params])%list |}).
Proof.
  intros H Hr. apply dispatched_translate in H.
  rewrite (_send_valid World transmissions_send m st params H).
  unfold dispatch, try_except, client_transmissions_send.
  rewrite Hr. reflexivity.
Qed.

(** X6. An exception of the remote capability that is not a provider error
    leaves [_send] as it came, whatever its kind. *)
Theorem other_exception_propagates (m : EmailMessage) (st : state)
    (params : gmap string value) (e : exn) (w' : World) :
  reaches m st params ->
  transmissions_send params (world st) = (Raise e, w') ->
  (forall errors, e <> SparkPostAPIException errors) ->
  send m st = (Raise e, {| world := w'; calls := (calls st ++ [params])%list |}).
Proof.
  intros H Hr He. apply dispatched_translate in H.
  rewrite (_send_valid World transmissions_send m st params H).
  unfold dispatch, try_except, client_transmissions_send, raise.
  rewrite Hr. destruct e; try reflexivity.
  exfalso. exact (He errors eq_refl).
Qed.

Lemma any_1603_Exists (errors : list error_record) :
  any_1603 errors = true -> Exists (fun err => code err = "1603") errors.
Proof.
  unfold any_1603. intros H. apply existsb_exists in H as (err & Hin & Hc).
  apply List.Exists_exists. exists err. split; [exact Hin|].
  apply String.eqb_eq. exact Hc.
Qed.

(** X14. [_send] fails with [InvalidStoredTemplate] only after a call of the
    remote capability, and only when that call raised a provider error
    with a code "1603" entry, which is then the error carried, or when the
    call itself raised this [InvalidStoredTemplate]. *)
Theorem invalid_stored_template_origin (m : EmailMessage) (st st' : state)
    (e : exn) :
  send m st = (Raise (InvalidStoredTemplate e), st') ->
  exists params,
    reaches m st params /\
    ((exists errors, e = SparkPostAPIException errors /\
        Exists (fun err => code err = "1603") errors /\
        fst (transmissions_send params (world st)) = Raise e) \/
     fst (transmissions_send params (world st))
       = Raise (InvalidStoredTemplate e)).
Proof.
  intros H. pose proof H as H0. rewrite _send_translate in H.
  destruct (translate m) as [params|e0] eqn:T.
  - exists params. split; [apply dispatched_translate; exact T|].
    unfold dispatch, try_except, client_transmissions_send, raise in H.
    destruct (transmissions_send params (world st)) as [[r|e1] w]; cbn in *;
      [discriminate|].
    destruct e1; try discriminate.
    + injection H as -> _. right. reflexivity.
    + destruct (any_1603 errors) eqn:A; [|discriminate].
      injection H as <- _. left. exists errors.
      split; [reflexivity|]. split; [|reflexivity].
      exact (any_1603_Exists errors A).
  - injection H as -> _.
    apply translate_raise in T as [msg [T|[T|T]]]; discriminate.
Qed.

(** ** Batches *)

Lemma send_calls (m : EmailMessage) (st : state) :
  exists ps, calls (snd (send m st)) = (calls st ++ ps)%list /\
             (List.length ps <= 1)%nat.
Proof.
  rewrite _send_translate. destruct (translate m) as [params|e].
  - exists [params]. split; [apply dispatch_calls|reflexivity].
  - exists []. cbn. rewrite app_nil_r. split; [reflexivity|lia].
Qed.

Lemma send_loop_calls (fs : bool) (msgs : list EmailMessage) :
  forall (success : Z) (st : state),
  exists ps,
    calls (snd (send_loop fs msgs success st)) = (calls st ++ ps)%list /\
    (List.length ps <= List.length msgs)%nat.
Proof.
  induction msgs as [|m msgs IH]; intros success st;
    cbn [send_messages_loop].
  - exists []. cbn. rewrite app_nil_r. split; [reflexivity|lia].
  - destruct (send_calls m st) as (ps1 & H1 & L1).
    destruct (send m st) as [[r|e] st1]; cbn [snd] in H1.
    + destruct (IH (success + total_accepted_recipients r) st1)
        as (ps2 & H2 & L2).
      exists (ps1 ++ ps2)%list. rewrite H2, H1, <- app_assoc.
      split; [reflexivity|]. rewrite length_app. cbn [List.length]. lia.
    + destruct (negb fs).
      * exists ps1. cbn [snd]. split; [exact H1|]. cbn [List.length]. lia.
      * destruct (IH success st1) as (ps2 & H2 & L2).
        exists (ps1 ++ ps2)%list. rewrite H2, H1, <- app_assoc.
        split; [reflexivity|]. rewrite length_app. cbn [List.length]. lia.
Qed.

(** X4. Whatever the messages, the remote and the mode, [send_messages]
    only appends to the log of calls and calls the remote capability at
    most once per message of the batch. *)
Theorem send_messages_calls_bound (fs : bool) (msgs : list EmailMessage)
    (st : state) :
  exists ps,
    calls (snd (send_all fs msgs st)) = (calls st ++ ps)%list /\
    (List.length ps <= List.length msgs)%nat.
Proof. apply send_loop_calls. Qed.


(** X8. Sending the batch [a ++ b] is sending [a], then [b] from the state
    [a] left, and adding the two counts; an error of either part is the
    error of the whole, and an error of [a] keeps [b] from being sent. *)
Theorem send_messages_app (fs : bool) (a b : list EmailMessage) (st : state) :
  send_all fs (a ++ b) st =
  match send_all fs a st with
  | (Ok n, st1) =>
      match send_all fs b st1 with
      | (Ok k, st2) => (Ok (n + k), st2)
      | (Raise e, st2) => (Raise e, st2)
      end
  | (Raise e, st1) => (Raise e, st1)
  end.
Proof.
  unfold send_messages. rewrite send_loop_app.
  destruct (send_loop fs a 0 st) as [[n|e] st1]; [|reflexivity].
  apply send_loop_success.
Qed.

(** ** The override merge in general *)

(** The override step is always the same merge: for an empty override it
    changes nothing. *)
Lemma apply_cfg_merge_any (m : EmailMessage) (cfg params q : gmap string value) :
  sparkpost m = Some cfg ->
  apply_cfg m params = Ok q ->
  q = dict_update
        (if truthy (dict_get cfg "template")
         then dict_pop "text" params else params) cfg.
Proof.
  intros Hs. unfold apply_cfg. rewrite Hs.
  destruct (cfg_truthy (Some cfg)) eqn:E.
  - destruct (check_inline_template cfg); [|discriminate].
    intros [= <-]. reflexivity.
  - intros [= <-]. rewrite (cfg_falsy_empty cfg E).
    unfold dict_update, dict_get. rewrite lookup_empty. cbn.
    rewrite (left_id_L ∅ (∪)). reflexivity.
Qed.

(** X9. The override wins on every key but html, which the alternative
    parts may overwrite: each key of the override reaches the remote with
    the override's value, also subject, recipients and from_email.  A key
    the override does not have, other than html and text, reaches the
    remote as the message gives it. *)
Theorem override_merge (m : EmailMessage) (cfg : gmap string value)
    (st : state) (params : gmap string value) :
  sparkpost m = Some cfg ->
  reaches m st params ->
  (forall k v, k <> "html" -> cfg !! k = Some v -> params !! k = Some v) /\
  (forall k, k <> "html" -> k <> "text" -> cfg !! k = None ->
     params !! k = base_params m !! k).
Proof.
  intros Hs H. apply dispatched_translate in H.
  apply translate_steps in H as (q & Hq & Hp).
  pose proof (apply_cfg_merge_any m cfg _ q Hs Hq) as ->.
  split.
  - intros k v Hk Hv.
    rewrite (apply_alternatives_other m _ params k Hp Hk).
    apply dict_update_lookup. exact Hv.
  - intros k Hk Ht Hv.
    rewrite (apply_alternatives_other m _ params k Hp Hk).
    rewrite (dict_update_lookup_None _ _ _ Hv).
    destruct (truthy (dict_get cfg "template")); [|reflexivity].
    unfold dict_pop. apply lookup_delete_ne. congruence.
Qed.

(** X10. The base text is dropped only for a template reference that is
    true: with an override whose template key is absent or holds a value
    Python takes for false, such as the empty string, and which has no text
    of its own, the text that reaches the remote is the body of the
    message. *)
Theorem falsy_template_keeps_text (m : EmailMessage) (cfg : gmap string value)
    (st : state) (params : gmap string value) :
  sparkpost m = Some cfg ->
  truthy (dict_get cfg "template") = false ->
  cfg !! "text" = None ->
  reaches m st params ->
  params !! "text" = Some (VStr (body m)).
Proof.
  intros Hs Ht Htext H. apply dispatched_translate in H.
  apply translate_steps in H as (q & Hq & Hp).
  rewrite (apply_alternatives_other m q params "text" Hp) by discriminate.
  rewrite (apply_cfg_merge_any m cfg _ q Hs Hq), Ht.
  rewrite (dict_update_lookup_None _ _ _ Htext).
  unfold base_params. simplify_map_eq. reflexivity.
Qed.


(** ** The alternatives loop, further *)

Lemma alternatives_loop_first_bad (pre post : list (string * string))
    (a : string * string) :
  Forall (fun b => snd b = "text/html") pre ->
  snd a <> "text/html" ->
  forall params : gmap string value,
  alternatives_loop (pre ++ a :: post) params =
  Raise (UnsupportedContent
    ("Content type " +:+ snd a +:+ " is not supported")).
Proof.
  intros Hpre Ha. induction Hpre as [|b pre Hb _ IH]; intros params;
    cbn [alternatives_loop app].
  - apply String.eqb_neq in Ha. rewrite Ha. reflexivity.
  - rewrite Hb. cbn. apply IH.
Qed.

(** X11. The [UnsupportedContent] error of the alternatives loop names the
    content type of the first part that is not of html type; the parts
    after it are not looked at, and the remote is not called. *)
Theorem unsupported_content_names_first (m : EmailMessage)
    (pre post : list (string * string)) (a : string * string) (st : state) :
  no_unsupported_params m ->
  attachments m = [] ->
  inline_template_ok m ->
  alternatives m = Some (pre ++ a :: post)%list ->
  Forall (fun b => snd b = "text/html") pre ->
  snd a <> "text/html" ->
  send m st =
  (Raise (UnsupportedContent
     ("Content type " +:+ snd a +:+ " is not supported")), st).
Proof.
  intros Hp Ha Hi Halt Hpre Hbad. apply _send_invalid.
  rewrite (translate_checked m Hp Ha).
  destruct (apply_cfg_ok m (base_params m) Hi) as [q ->].
  rewrite apply_alternatives_loop, Halt.
  apply alternatives_loop_first_bad; assumption.
Qed.

(** ** The order of the calls of a batch *)

(** X13. When every message of a batch is sent with success, the log of
    calls grows by the parameters of the messages, one entry per message
    and in the order of the batch. *)
Theorem batch_calls_in_order (msgs : list EmailMessage) (st st' : state)
    (rs : list response) :
  batch_sent msgs st rs st' ->
  exists ps,
    calls st' = (calls st ++ ps)%list /\
    Forall2 (fun m params => translate m = Ok params) msgs ps.
Proof.
  induction 1 as [st|m rest st r st1 rs st2 Hm _ (ps & IH & HF)].
  - exists []. rewrite app_nil_r. split; [reflexivity|constructor].
  - pose proof (_send_translate World transmissions_send m st) as T.
    rewrite Hm in T.
    destruct (translate m) as [params|e] eqn:E; [|discriminate].
    exists (params :: ps). split.
    + rewrite IH.
      pose proof (dispatch_calls World transmissions_send params st) as D.
      rewrite <- T in D. cbn in D. rewrite D, <- app_assoc. reflexivity.
    + constructor; [exact E|exact HF].
Qed.

(** ** Html without alternative parts *)

(** X15. Without alternative parts, absent or an empty list, the html that
    reaches the remote is the override's, and there is none when the
    override has none. *)
Theorem override_html_without_alternatives (m : EmailMessage)
    (cfg : gmap string value) (st : state) (params : gmap string value) :
  sparkpost m = Some cfg ->
  alternatives m = None \/ alternatives m = Some [] ->
  reaches m st params ->
  params !! "html" = cfg !! "html".
Proof.
  intros Hs Halt H. apply dispatched_translate in H.
  apply translate_steps in H as (q & Hq & Hp).
  rewrite apply_alternatives_loop in Hp.
  assert (q = params) as <-.
  { destruct Halt as [E|E]; rewrite E in Hp; cbn in Hp; congruence. }
  rewrite (apply_cfg_merge_any m cfg _ q Hs Hq).
  destruct (cfg !! "html") as [v|] eqn:E.
  - apply dict_update_lookup. exact E.
  - rewrite (dict_update_lookup_None _ _ _ E).
    destruct (truthy (dict_get cfg "template")); unfold dict_pop, base_params;
      simplify_map_eq; reflexivity.
Qed.

(** ** Batches of unsupported messages *)

Lemma unsupported_raises (m : EmailMessage) :
  ~ supported m -> exists e, translate m = Raise e.
Proof.
  intros Hn. destruct (translate m) as [params|e] eqn:T; [|eauto].
  exfalso. apply Hn.
  unfold translate in T.
  destruct (check_unsupported m) as [[]|] eqn:E1; [|discriminate].
  destruct (check_attachments m) as [[]|] eqn:E2; [|discriminate].
  destruct (apply_cfg m (base_params m)) as [q|] eqn:E3; [|discriminate].
  split; [exact (check_unsupported_inv m E1)|].
  split; [exact (check_attachments_inv m E2)|].
  split; [exact (apply_cfg_inv m _ q E3)|].
  rewrite apply_alternatives_loop in T. unfold alternatives_html.
  destruct (alternatives m) as [alts|]; [|trivial].
  exact (alternatives_loop_inv alts q params T).
Qed.

(** X16. In fail-silently mode a batch in which no message passes the
    validation returns 0 and leaves the state as it was: the remote
    capability is never called. *)
Theorem silent_unsupported_batch (msgs : list EmailMessage) (st : state) :
  Forall (fun m => ~ supported m) msgs ->
  send_all true msgs st = (Ok 0, st).
Proof.
  unfold send_messages. generalize 0. intros success.
  induction 1 as [|m msgs Hm _ IH]; cbn [send_messages_loop].
  - reflexivity.
  - destruct (unsupported_raises m Hm) as [e He].
    rewrite (_send_invalid World transmissions_send m st e He). cbn.
    apply IH.
Qed.

End BackendMore.

(** * The further properties on concrete messages *)

Lemma plain_message_params_witness :
  exists params,
    dispatched mock_send plain_message (mock_state []) params /\
    dom params = ({[ "recipients"; "from_email"; "subject"; "text" ]} : gset string) /\
    params !! "recipients" = Some (VList [VStr "to@example.com"]) /\
    params !! "from_email" = Some (VStr "from@example.com") /\
    params !! "subject" = Some (VStr "test subject") /\
    params !! "text" = Some (VStr "test body").
Proof.
  exact (plain_message_params mock_world mock_send plain_message
           (mock_state []) plain_message_supported eq_refl eq_refl
           (or_introl eq_refl)).
Defined.

Lemma error_without_call_is_validation_witness :
  mock_state [accepted 1] = mock_state [accepted 1] /\
  exists msg,
    UnsupportedContent
      "The SparkPost Django email backend does not currently support attachment."
      = UnsupportedParam msg \/
    UnsupportedContent
      "The SparkPost Django email backend does not currently support attachment."
      = UnsupportedContent msg \/
    UnsupportedContent
      "The SparkPost Django email backend does not currently support attachment."
      = InvalidInlineTemplate msg.
Proof.
  refine (error_without_call_is_validation mock_world mock_send
            attached_message (mock_state [accepted 1])
            (mock_state [accepted 1]) _ _ _).
  - vm_compute. reflexivity.
  - reflexivity.
Defined.

Lemma send_returns_response_witness :
  msend plain_message (mock_state [accepted 10])
  = (Ok (response_of 10), mock_log [] [base_params plain_message]).
Proof.
  refine (send_returns_response mock_world mock_send plain_message
            (mock_state [accepted 10]) (base_params plain_message)
            (response_of 10) [] _ _).
  - vm_compute. reflexivity.
  - reflexivity.
Defined.

Lemma other_exception_propagates_witness :
  msend plain_message (mock_state [Raise (OtherException "i should be raised")])
  = (Raise (OtherException "i should be raised"),
     mock_log [] [base_params plain_message]).
Proof.
  refine (other_exception_propagates mock_world mock_send plain_message
            (mock_state [Raise (OtherException "i should be raised")])
            (base_params plain_message) _ [] _ _ _).
  - vm_compute. reflexivity.
  - reflexivity.
  - discriminate.
Defined.

Lemma invalid_stored_template_origin_witness :
  exists params,
    dispatched mock_send plain_message
      (mock_state [Raise template_not_found]) params /\
    ((exists errors, template_not_found = SparkPostAPIException errors /\
        Exists (fun err => code err = "1603") errors /\
        fst (mock_send params [Raise template_not_found])
          = Raise template_not_found) \/
     fst (mock_send params [Raise template_not_found])
       = Raise (InvalidStoredTemplate template_not_found)).
Proof.
  refine (invalid_stored_template_origin mock_world mock_send plain_message
            (mock_state [Raise template_not_found])
            (mock_log [] [base_params plain_message]) template_not_found _).
  vm_compute. reflexivity.
Defined.

Lemma override_merge_witness :
  (subject_cfg ∪ base_params plain_message) !! "subject"
    = Some (VStr "Overridden subject") /\
  (subject_cfg ∪ base_params plain_message) !! "recipients"
    = Some (VList [VStr "to@example.com"]).
Proof.
  destruct (override_merge mock_world mock_send
              (with_sparkpost subject_cfg plain_message) subject_cfg
              (mock_state []) (subject_cfg ∪ base_params plain_message))
    as [Hover Hbase]; [reflexivity | vm_compute; reflexivity |].
  split.
  - apply Hover; [discriminate | vm_compute; reflexivity].
  - rewrite Hbase; [vm_compute; reflexivity | discriminate | discriminate
                   | vm_compute; reflexivity].
Defined.

Lemma falsy_template_keeps_text_witness :
  (empty_template_cfg ∪ base_params plain_message) !! "text"
    = Some (VStr "test body").
Proof.
  refine (falsy_template_keeps_text mock_world mock_send
            (with_sparkpost empty_template_cfg plain_message)
            empty_template_cfg (mock_state [])
            (empty_template_cfg ∪ base_params plain_message) _ _ _ _).
  - reflexivity.
  - vm_compute. reflexivity.
  - vm_compute. reflexivity.
  - vm_compute. reflexivity.
Defined.

Lemma unsupported_content_names_first_witness :
  msend mixed_message (mock_state [accepted 1])
  = (Raise (UnsupportedContent
       "Content type application/json is not supported"),
     mock_state [accepted 1]).
Proof.
  refine (unsupported_content_names_first mock_world mock_send mixed_message
            [("<p>Hello</p>", "text/html")] [("hello", "text/alien")]
            ("{}", "application/json") (mock_state [accepted 1])
            plain_message_supported eq_refl I eq_refl _ _).
  - repeat constructor.
  - discriminate.
Defined.

Lemma batch_calls_in_order_witness :
  exists ps,
    [base_params plain_message;
     <["html" := VStr "<p>Hello There</p>"]> (base_params plain_message)]
    = ([] ++ ps)%list /\
    Forall2 (fun m params => translate m = Ok params)
      [plain_message; html_message] ps.
Proof.
  refine (batch_calls_in_order mock_world mock_send
            [plain_message; html_message]
            (mock_state [accepted 1; accepted 10])
            (mock_log []
               [base_params plain_message;
                <["html" := VStr "<p>Hello There</p>"]>
                  (base_params plain_message)])
            [response_of 1; response_of 10] _).
  apply (all_sent_cons _ mock_send _ _ _ _
           (mock_log [accepted 10] [base_params plain_message]));
    [vm_compute; reflexivity|].
  apply (all_sent_cons _ mock_send _ _ _ _
           (mock_log []
              [base_params plain_message;
               <["html" := VStr "<p>Hello There</p>"]>
                 (base_params plain_message)]));
    [vm_compute; reflexivity|].
  apply all_sent_nil.
Defined.

Lemma override_html_without_alternatives_witness :
  (inline_cfg ∪ base_params plain_message) !! "html"
    = Some (VStr "<p>template content</>").
Proof.
  refine (override_html_without_alternatives mock_world mock_send
            (with_sparkpost inline_cfg plain_message) inline_cfg
            (mock_state []) (inline_cfg ∪ base_params plain_message)
            eq_refl (or_introl eq_refl) _).
  vm_compute. reflexivity.
Defined.

Lemma silent_unsupported_batch_witness :
  msend_all true [attached_message; alien_message] (mock_state [accepted 1])
  = (Ok 0, mock_state [accepted 1]).
Proof.
  refine (silent_unsupported_batch mock_world mock_send
            [attached_message; alien_message] (mock_state [accepted 1]) _).
  constructor.
  - intros (_ & Ha & _). discriminate.
  - constructor; [|constructor].
    intros (_ & _ & _ & Hh). unfold alternatives_html in Hh. cbn in Hh.
    inversion Hh as [|a l Ha Hl]. discriminate.
Defined.
